(** * Verification of the procurement assistant's query layer

    Shallow embedding of [src/database.py] ([MongoDBManager.execute_query],
    [MongoDBManager.execute_aggregation]), of [src/ai_agent.py]
    ([ProcurementAssistant._execute_mongodb_query], [query],
    [_format_chat_history], [reset_conversation], the quarter [$switch] of
    the tool examples) and of the parts of the libraries these call
    (json.loads, pymongo cursors, the aggregation server, LangChain's
    [AgentExecutor] loop). *)

From Stdlib Require Import List Ascii String ZArith Bool Lia.
Import ListNotations.
Open Scope string_scope.
Set Warnings "-register-all".

(** ** JSON / BSON values

    The payloads handed to the tools are JSON text; after [json.loads]
    they are Python dicts, lists, strings, numbers, booleans and [None].
    Numbers are integers here (float payloads are out of scope). *)

Inductive json : Type :=
| JNull
| JBool (b : bool)
| JNum (z : Z)
| JStr (s : string)
| JArr (xs : list json)
| JObj (kvs : list (string * json)).

(** A stored record, a MongoDB document: a flat mapping of field names. *)
Definition doc := list (string * json).

Fixpoint json_eqb (a b : json) : bool :=
  match a, b with
  | JNull, JNull => true
  | JBool x, JBool y => Bool.eqb x y
  | JNum x, JNum y => Z.eqb x y
  | JStr x, JStr y => String.eqb x y
  | JArr xs, JArr ys =>
      (fix go (xs ys : list json) : bool :=
         match xs, ys with
         | [], [] => true
         | x :: xs', y :: ys' => json_eqb x y && go xs' ys'
         | _, _ => false
         end) xs ys
  | JObj xs, JObj ys =>
      (fix go (xs ys : list (string * json)) : bool :=
         match xs, ys with
         | [], [] => true
         | (k, x) :: xs', (k', y) :: ys' =>
             String.eqb k k' && json_eqb x y && go xs' ys'
         | _, _ => false
         end) xs ys
  | _, _ => false
  end.

(** [d.get(k)] on a dict: the first binding of [k]. *)
Fixpoint lookup_key {A} (k : string) (kvs : list (string * A)) : option A :=
  match kvs with
  | [] => None
  | (k', v) :: rest => if String.eqb k k' then Some v else lookup_key k rest
  end.

(** ** Python outcomes: a value or a raised exception.

    [json.JSONDecodeError] is kept apart because the tool catches it in
    its own [except] clause; every other exception carries its class name
    and its [str(e)]. *)

Inductive exn : Type :=
| JSONDecodeError (msg : string)
| PyError (cls msg : string).

Definition exn_str (e : exn) : string :=
  match e with
  | JSONDecodeError m => m
  | PyError _ m => m
  end.

Inductive outcome (A : Type) : Type :=
| Ok (a : A)
| Raise (e : exn).
Arguments Ok {A} a.
Arguments Raise {A} e.

Definition bind {A B} (m : outcome A) (k : A -> outcome B) : outcome B :=
  match m with
  | Ok a => k a
  | Raise e => Raise e
  end.

Notation "x <- m ;; k" := (bind m (fun x => k))
  (at level 61, m at next level, right associativity).

(** ** Python's [key in obj] for the value a pipeline stage may be.

    On a dict it tests the keys, on a list it tests the elements, on a
    string it is a substring test, and on a number, a boolean or [None] it
    raises [TypeError]. *)

Definition py_type_name (v : json) : string :=
  match v with
  | JNull => "NoneType"
  | JBool _ => "bool"
  | JNum _ => "int"
  | JStr _ => "str"
  | JArr _ => "list"
  | JObj _ => "dict"
  end.

Definition py_contains (key : string) (v : json) : outcome bool :=
  match v with
  | JObj kvs => Ok (existsb (fun kv => String.eqb (fst kv) key) kvs)
  | JArr xs =>
      Ok (existsb (fun x => match x with
                            | JStr s => String.eqb s key
                            | _ => false
                            end) xs)
  | JStr s => Ok (match String.index 0 key s with
                  | Some _ => true
                  | None => false
                  end)
  | _ => Raise (PyError "TypeError"
                  ("argument of type '" ++ py_type_name v ++ "' is not iterable"))
  end.

(** [any('$limit' in stage for stage in pipeline)]: the generator is
    consumed left to right and stops at the first [True]; a [TypeError]
    met before that propagates. *)
Fixpoint any_has_limit (pipeline : list json) : outcome bool :=
  match pipeline with
  | [] => Ok false
  | stage :: rest =>
      match py_contains "$limit" stage with
      | Raise e => Raise e
      | Ok true => Ok true
      | Ok false => any_has_limit rest
      end
  end.

Definition limit_stage (limit : nat) : json :=
  JObj [("$limit", JNum (Z.of_nat limit))].

(** ** The MongoDB collection and the [MongoDBManager] queries

    The collection is a list of documents in natural (store) order.  The
    server's query language is only partly modelled: equality conditions of
    a filter and the [$match] and [$limit] stages are written out; operator
    conditions ([$gt], [$type], ...) and the other stages ([$group],
    [$sort], [$addFields], ...) are left to [ext_cond] and [ext_stage]. *)

Section Store.

Variable collection : list doc.
Variable ext_cond : string -> json -> doc -> bool.
Variable ext_stage : string -> json -> list doc -> outcome (list doc).

Definition is_operator (k : string) : bool :=
  match k with
  | String "$"%char _ => true
  | _ => false
  end.

Definition is_operator_expr (c : json) : bool :=
  match c with
  | JObj ((k, _) :: _) => is_operator k
  | _ => false
  end.

(** One [field: condition] pair of a filter: plain equality (a [null]
    condition also matches a missing field, an array field matches when an
    element equals the value); operator forms go to the server model. *)
Definition cond_holds (k : string) (c : json) (d : doc) : bool :=
  if is_operator k || is_operator_expr c then ext_cond k c d
  else match lookup_key k d with
       | Some v =>
           json_eqb v c ||
           match v with
           | JArr xs => existsb (json_eqb c) xs
           | _ => false
           end
       | None => json_eqb c JNull
       end.

Definition matches (filter : list (string * json)) (d : doc) : bool :=
  forallb (fun kc => cond_holds (fst kc) (snd kc) d) filter.

(** pymongo's [Cursor.limit(n)]: a limit of 0 means no limit. *)
Definition cursor_limit (n : nat) (xs : list doc) : list doc :=
  match n with
  | 0 => xs
  | _ => firstn n xs
  end.

(** [list(self.collection.find(query).limit(limit))]; pymongo reads a
    [None] filter as [{}] and rejects any other filter that is not a
    mapping. *)
Definition execute_query (query : json) (limit : nat) : outcome (list doc) :=
  match query with
  | JObj f => Ok (cursor_limit limit (filter (matches f) collection))
  | JNull => Ok (cursor_limit limit collection)
  | _ => Raise (PyError "TypeError" "filter must be an instance of dict, bson.son.SON, or any other type that inherits from collections.Mapping")
  end.

(** One aggregation stage on the server. *)
Definition eval_stage (stage : json) (docs : list doc) : outcome (list doc) :=
  match stage with
  | JObj [(op, arg)] =>
      if String.eqb op "$match" then
        match arg with
        | JObj f => Ok (filter (matches f) docs)
        | _ => Raise (PyError "OperationFailure" "the match filter must be an expression in an object")
        end
      else if String.eqb op "$limit" then
        match arg with
        | JNum n =>
            if Z.ltb 0 n then Ok (firstn (Z.to_nat n) docs)
            else Raise (PyError "OperationFailure" "the limit must be positive")
        | _ => Raise (PyError "OperationFailure" "the limit must be specified as a number")
        end
      else ext_stage op arg docs
  | _ => Raise (PyError "OperationFailure" "A pipeline stage specification object must contain exactly one field.")
  end.

Fixpoint run_pipeline (pipeline : list json) (docs : list doc) : outcome (list doc) :=
  match pipeline with
  | [] => Ok docs
  | stage :: rest => docs' <- eval_stage stage docs ;; run_pipeline rest docs'
  end.

(** [list(self.collection.aggregate(pipeline))]. *)
Definition aggregate (pipeline : list json) : outcome (list doc) :=
  run_pipeline pipeline collection.

(** [MongoDBManager.execute_aggregation(pipeline, limit)].  The caller's
    list object is threaded through: the first component is that list
    after the call ([pipeline.append] mutates it in place). *)
Definition execute_aggregation (pipeline : list json) (limit : nat)
  : list json * outcome (list doc) :=
  match any_has_limit pipeline with
  | Raise e => (pipeline, Raise e)
  | Ok true => (pipeline, aggregate pipeline)
  | Ok false =>
      let pipeline' := (pipeline ++ [limit_stage limit])%list in
      (pipeline', aggregate pipeline')
  end.

End Store.

(** ** Decimal rendering of a count, as in an f-string. *)

Fixpoint nat_to_string_aux (fuel n : nat) (acc : string) : string :=
  match fuel with
  | 0 => acc
  | S fuel' =>
      let acc' := String (ascii_of_nat (48 + n mod 10)) acc in
      if Nat.ltb n 10 then acc' else nat_to_string_aux fuel' (n / 10) acc'
  end.

Definition nat_to_string (n : nat) : string := nat_to_string_aux (S n) n "".

(** ** The tool adapter: [ProcurementAssistant._execute_mongodb_query]

    [json_loads] is [json.loads]: it returns the parsed value or raises
    [JSONDecodeError].  The tool's result is the object handed to
    [json.dumps]; the [outcome] around it is what escapes the tool. *)

Section Tools.

Variable collection : list doc.
Variable ext_cond : string -> json -> doc -> bool.
Variable ext_stage : string -> json -> list doc -> outcome (list doc).
Variable json_loads : string -> outcome json.

(** [d.get(k, default)]: only dicts have [.get]. *)
Definition dict_get (v : json) (k : string) (default : json) : outcome json :=
  match v with
  | JObj kvs => Ok (match lookup_key k kvs with
                    | Some x => x
                    | None => default
                    end)
  | _ => Raise (PyError "AttributeError"
                  ("'" ++ py_type_name v ++ "' object has no attribute 'get'"))
  end.

(** [s1 in s2] on two strings. *)
Definition str_contains (key s : string) : bool :=
  match String.index 0 key s with
  | Some _ => true
  | None => false
  end.

(** [query_dict if isinstance(query_dict, list) else query_dict.get("pipeline", [])],
    then [execute_aggregation(pipeline, limit=100)].  A pipeline that is not
    a list fails inside [execute_aggregation]: iterating a number, a boolean
    or [None] raises [TypeError]; a string (whose characters never contain
    ["$limit"]) or a dict none of whose keys contains ["$limit"] has no
    [append]; a dict with such a key reaches pymongo, which accepts lists
    only. *)
Definition run_aggregate (query_dict : json) : outcome (list doc) :=
  pipeline <- (match query_dict with
               | JArr _ => Ok query_dict
               | _ => dict_get query_dict "pipeline" (JArr [])
               end) ;;
  match pipeline with
  | JArr p => snd (execute_aggregation collection ext_cond ext_stage p 100)
  | JObj kvs =>
      if existsb (fun kv => str_contains "$limit" (fst kv)) kvs
      then Raise (PyError "TypeError" "pipeline must be a list")
      else Raise (PyError "AttributeError" "'dict' object has no attribute 'append'")
  | JStr _ => Raise (PyError "AttributeError" "'str' object has no attribute 'append'")
  | _ => Raise (PyError "TypeError" ("'" ++ py_type_name pipeline ++ "' object is not iterable"))
  end.

(** [find_query = query_dict.get("query", {})], then
    [execute_query(find_query, limit=100)]. *)
Definition run_find (query_dict : json) : outcome (list doc) :=
  find_query <- dict_get query_dict "query" (JObj []) ;;
  execute_query collection ext_cond find_query 100.

Definition summary (results : list doc) : json :=
  let n := List.length results in
  JObj [("count", JNum (Z.of_nat n));
        ("results", JArr (map JObj (if Nat.ltb 10 n then firstn 10 results else results)));
        ("note", JStr (if Nat.ltb 10 n
                       then "Showing first 10 of " ++ nat_to_string n ++ " results"
                       else ""))].

(** [if not results: ...] and the summary. *)
Definition format_results (results : list doc) : json :=
  match results with
  | [] => JObj [("message", JStr "No results found"); ("count", JNum 0)]
  | _ => summary results
  end.

(** The body of the [try] block. *)
Definition execute_mongodb_query_body (query_type query : string) : outcome json :=
  query_dict <- json_loads query ;;
  results <- (if String.eqb query_type "aggregate" then run_aggregate query_dict
              else run_find query_dict) ;;
  Ok (format_results results).

(** The [try]/[except json.JSONDecodeError]/[except Exception] wrapper. *)
Definition execute_mongodb_query (query_type query : string) : outcome json :=
  match execute_mongodb_query_body query_type query with
  | Ok v => Ok v
  | Raise (JSONDecodeError e) => Ok (JObj [("error", JStr ("Invalid JSON format: " ++ e))])
  | Raise e => Ok (JObj [("error", JStr ("Error executing query: " ++ exn_str e))])
  end.

(** The two tools of [_create_tools]. *)
Definition execute_mongodb_aggregate (query : string) : outcome json :=
  execute_mongodb_query "aggregate" query.

Definition execute_mongodb_find (query : string) : outcome json :=
  execute_mongodb_query "find" query.

End Tools.

(** ** Quarter derivation

    The [$switch] of [DataExplorer.analyze_quarterly_spending] and of the
    aggregate tool's worked example: the first branch whose [$in] list
    holds the month wins, otherwise the [default]. *)

Fixpoint switch_in (branches : list (list Z * string)) (default : string) (m : Z) : string :=
  match branches with
  | [] => default
  | (months, label) :: rest =>
      if existsb (Z.eqb m) months then label else switch_in rest default m
  end.

Definition quarter_branches : list (list Z * string) :=
  [([7; 8; 9]%Z, "Q1"); ([10; 11; 12]%Z, "Q2"); ([1; 2; 3]%Z, "Q3"); ([4; 5; 6]%Z, "Q4")].

Definition quarter_of_month (m : Z) : string := switch_in quarter_branches "Unknown" m.

(** ** Conversation state *)

Record turn := { role : string; content : string }.

Inductive message : Type :=
| HumanMessage (content : string)
| AIMessage (content : string).

Definition to_message (msg : turn) : message :=
  if String.eqb (role msg) "user" then HumanMessage (content msg)
  else AIMessage (content msg).

(** Python's [l[-n:]]. *)
Definition py_last {A} (n : nat) (l : list A) : list A :=
  skipn (List.length l - n) l.

(** [_format_chat_history]: the last 10 entries, as messages. *)
Definition format_chat_history (conversation_history : list turn) : list message :=
  map to_message (py_last 10 conversation_history).

(** [conversation_history.append(t)]. *)
Definition append_turn (conversation_history : list turn) (t : turn) : list turn :=
  (conversation_history ++ [t])%list.

(** [reset_conversation]: the history after the call. *)
Definition reset_conversation (conversation_history : list turn) : list turn := [].

(** ** The per-turn entry point [ProcurementAssistant.query]

    [invoke] stands for building the tools, the prompt, the agent and the
    [AgentExecutor] and calling [agent_executor.invoke]; it returns the
    response dict (string values) or raises.  The result is the returned
    string and the conversation history after the call. *)

Definition error_prefix : string :=
  "I encountered an error while processing your question: ".

Definition default_answer : string :=
  "I apologize, but I couldn't generate an answer.".

Section Query.

Variable invoke : string -> list message -> outcome (list (string * string)).

Definition query (conversation_history : list turn) (user_question : string)
  : string * list turn :=
  match invoke user_question (format_chat_history conversation_history) with
  | Raise e => (error_prefix ++ exn_str e, conversation_history)
  | Ok response =>
      let answer := match lookup_key "output" response with
                     | Some a => a
                     | None => default_answer
                     end in
      let h1 := append_turn conversation_history {| role := "user"; content := user_question |} in
      let h2 := append_turn h1 {| role := "assistant"; content := answer |} in
      (answer, h2)
  end.

End Query.

(** ** LangChain's [AgentExecutor] loop, as [query] configures it

    [Config.MAX_ITERATIONS] is 3.  Each iteration asks the agent to plan:
    it finishes with an output, or returns the list of tool calls the model
    emitted (the OpenAI tools agent may emit several in one message), each
    of which is executed, or its output fails to parse, which with
    [handle_parsing_errors=True] is recorded as an [_Exception] step without
    running a tool.  When the budget is used up the agent's [force] stop
    response is returned.  The third component counts tool invocations,
    the fourth says whether the budget ran out. *)

Definition MAX_ITERATIONS : nat := 3.

Record tool_call := { tool_name : string; tool_input : string }.

Inductive agent_decision : Type :=
| AgentFinish (output : string)
| AgentActions (calls : list tool_call)
| AgentParseError (observation : string).

Definition stopped_output : string := "Agent stopped due to max iterations.".

Section Agent.

Variable plan : list (tool_call * string) -> outcome agent_decision.
Variable run_tool : tool_call -> string.

Fixpoint agent_loop (budget : nat) (steps : list (tool_call * string))
  : outcome (string * list (tool_call * string) * nat * bool) :=
  match budget with
  | 0 => Ok (stopped_output, steps, 0, true)
  | S budget' =>
      decision <- plan steps ;;
      match decision with
      | AgentFinish o => Ok (o, steps, 0, false)
      | AgentActions calls =>
          r <- agent_loop budget' (steps ++ map (fun c => (c, run_tool c)) calls)%list ;;
          let '(o, steps', n, exhausted) := r in
          Ok (o, steps', List.length calls + n, exhausted)
      | AgentParseError obs =>
          agent_loop budget'
            (steps ++ [({| tool_name := "_Exception"; tool_input := obs |}, obs)])%list
      end
  end.

(** [agent_executor.invoke(...)]: the response dict. *)
Definition agent_executor_invoke : outcome (list (string * string)) :=
  r <- agent_loop MAX_ITERATIONS [] ;;
  let '(o, _, _, _) := r in Ok [("output", o)].

End Agent.

(** ** Python dict assignment and [dict.update]

    [d[k] = v] overwrites an existing key in place and appends a new one
    (dicts keep insertion order). *)

Fixpoint dict_set {A} (k : string) (v : A) (kvs : list (string * A)) : list (string * A) :=
  match kvs with
  | [] => [(k, v)]
  | (k', v') :: rest =>
      if String.eqb k k' then (k, v) :: rest else (k', v') :: dict_set k v rest
  end.

Definition dict_update {A} (d other : list (string * A)) : list (string * A) :=
  fold_left (fun acc kv => dict_set (fst kv) (snd kv) acc) other d.

(** ** [MongoDBManager.get_sample_documents] and [get_schema_info] *)

Section StoreInfo.

Variable collection : list doc.

(** [list(self.collection.find().limit(count))]. *)
Definition get_sample_documents (count : nat) : list doc :=
  cursor_limit count collection.

Definition categorical_fields : list string :=
  ["Fiscal Year"; "Acquisition Type"; "Acquisition Method"; "CalCard"; "Department Name"].

(** [self.collection.distinct(field)]: the server's answer, or the
    exception it raises. *)
Variable distinct : string -> outcome (list json).

(** One turn of the [for field in categorical_fields] loop; the bare
    [except: pass] drops a failing field. *)
Definition distinct_step (distinct_values : list (string * json)) (field : string)
  : list (string * json) :=
  match distinct field with
  | Ok values =>
      if Nat.leb (List.length values) 50
      then dict_set field (JArr values) distinct_values
      else distinct_values
  | Raise _ => distinct_values
  end.

(** [get_schema_info]: [find_one()] is the first document in store order,
    [None] on an empty collection; an empty document is falsy as well.
    [type(value).__name__] is [py_type_name] on the modelled values. *)
Definition get_schema_info : json :=
  match hd_error collection with
  | None | Some [] => JObj [("error", JStr "Collection is empty")]
  | Some sample =>
      let schema :=
        fold_left (fun acc kv => dict_set (fst kv) (JStr (py_type_name (snd kv))) acc)
                  sample [] in
      let distinct_values := fold_left distinct_step categorical_fields [] in
      JObj [("fields", JObj schema);
            ("sample_document", JObj sample);
            ("distinct_values", JObj distinct_values)]
  end.

End StoreInfo.

(** ** [DataExplorer]: the analysis pipelines of [src/data_explorer.py] *)

Definition positive_price_cond : json :=
  JObj [("$gt", JNum 0); ("$type", JStr "number")].

Definition positive_price_match : json :=
  JObj [("$match", JObj [("Total Price", positive_price_cond)])].

Definition fiscal_year_pipeline : list json :=
  [positive_price_match;
   JObj [("$group", JObj [("_id", JStr "$Fiscal Year");
                          ("total_spending", JObj [("$sum", JStr "$Total Price")]);
                          ("order_count", JObj [("$sum", JNum 1)]);
                          ("avg_order_value", JObj [("$avg", JStr "$Total Price")])])];
   JObj [("$sort", JObj [("_id", JNum 1)])]].

Definition department_pipeline (top_n : nat) : list json :=
  [positive_price_match;
   JObj [("$group", JObj [("_id", JStr "$Department Name");
                          ("total_spending", JObj [("$sum", JStr "$Total Price")]);
                          ("order_count", JObj [("$sum", JNum 1)])])];
   JObj [("$sort", JObj [("total_spending", JNum (-1))])];
   JObj [("$limit", JNum (Z.of_nat top_n))]].

Definition acquisition_methods_pipeline : list json :=
  [positive_price_match;
   JObj [("$group", JObj [("_id", JStr "$Acquisition Method");
                          ("count", JObj [("$sum", JNum 1)]);
                          ("total_spending", JObj [("$sum", JStr "$Total Price")]);
                          ("avg_order_value", JObj [("$avg", JStr "$Total Price")])])];
   JObj [("$sort", JObj [("total_spending", JNum (-1))])]].

Definition top_suppliers_pipeline (top_n : nat) : list json :=
  [positive_price_match;
   JObj [("$group", JObj [("_id", JStr "$Supplier Name");
                          ("total_spending", JObj [("$sum", JStr "$Total Price")]);
                          ("order_count", JObj [("$sum", JNum 1)])])];
   JObj [("$sort", JObj [("total_spending", JNum (-1))])];
   JObj [("$limit", JNum (Z.of_nat top_n))]].

Definition top_items_pipeline (top_n : nat) : list json :=
  [JObj [("$match", JObj [("Item Name", JObj [("$ne", JStr "")]);
                          ("Total Price", positive_price_cond)])];
   JObj [("$group", JObj [("_id", JStr "$Item Name");
                          ("order_count", JObj [("$sum", JNum 1)]);
                          ("total_quantity", JObj [("$sum", JStr "$Quantity")]);
                          ("total_spending", JObj [("$sum", JStr "$Total Price")])])];
   JObj [("$sort", JObj [("order_count", JNum (-1))])];
   JObj [("$limit", JNum (Z.of_nat top_n))]].

(** The [$match] conditions of [analyze_quarterly_spending]: [if fiscal_year:]
    is false for [None] and for the empty string. *)
Definition quarterly_match_conditions (fiscal_year : option string) : list (string * json) :=
  let match_stage :=
    match fiscal_year with
    | Some fy => if String.eqb fy "" then [] else [("Fiscal Year", JStr fy)]
    | None => []
    end in
  let match_conditions := [("Total Price", positive_price_cond)] in
  match match_stage with
  | [] => match_conditions
  | _ => dict_update match_conditions match_stage
  end.

Definition quarter_switch : json :=
  JObj [("$switch", JObj [("branches", JArr (map (fun b =>
            JObj [("case", JObj [("$in", JArr [JStr "$creation_month"; JArr (map JNum (fst b))])]);
                  ("then", JStr (snd b))]) quarter_branches));
                          ("default", JStr "Unknown")])].

Definition quarterly_pipeline (fiscal_year : option string) : list json :=
  [JObj [("$match", JObj (quarterly_match_conditions fiscal_year))];
   JObj [("$addFields", JObj [("date_obj", JObj [("$dateFromString",
                                 JObj [("dateString", JStr "$Creation Date")])])])];
   JObj [("$addFields", JObj [("creation_month", JObj [("$month", JStr "$date_obj")])])];
   JObj [("$addFields", JObj [("quarter", quarter_switch)])];
   JObj [("$group", JObj [("_id", JObj [("fiscal_year", JStr "$Fiscal Year");
                                        ("quarter", JStr "$quarter")]);
                          ("total_spending", JObj [("$sum", JStr "$Total Price")]);
                          ("order_count", JObj [("$sum", JNum 1)])])];
   JObj [("$sort", JObj [("_id.fiscal_year", JNum 1); ("_id.quarter", JNum 1)])]].

Section Explorer.

Variable collection : list doc.
Variable ext_cond : string -> json -> doc -> bool.
Variable ext_stage : string -> json -> list doc -> outcome (list doc).

(** Each method returns [self.db_manager.execute_aggregation(pipeline, limit=...)];
    the pipeline is a fresh local list, so only the result is observable.
    [top_n] is a count (the callers pass 10 and the defaults are 10 and 20). *)
Definition analyze_spending_by_fiscal_year : outcome (list doc) :=
  snd (execute_aggregation collection ext_cond ext_stage fiscal_year_pipeline 10).

Definition analyze_spending_by_department (top_n : nat) : outcome (list doc) :=
  snd (execute_aggregation collection ext_cond ext_stage (department_pipeline top_n) top_n).

Definition analyze_acquisition_methods : outcome (list doc) :=
  snd (execute_aggregation collection ext_cond ext_stage acquisition_methods_pipeline 50).

Definition get_top_suppliers (top_n : nat) : outcome (list doc) :=
  snd (execute_aggregation collection ext_cond ext_stage (top_suppliers_pipeline top_n) top_n).

Definition get_top_items (top_n : nat) : outcome (list doc) :=
  snd (execute_aggregation collection ext_cond ext_stage (top_items_pipeline top_n) top_n).

Definition analyze_quarterly_spending (fiscal_year : option string) : outcome (list doc) :=
  snd (execute_aggregation collection ext_cond ext_stage (quarterly_pipeline fiscal_year) 50).

End Explorer.

(** ** [DataLoader.load_csv_to_mongodb] (the batch accounting)

    The CSV reader yields chunks one at a time; reading a chunk may raise
    ([Raise]), which the outer [try] turns into status ["error"].  Each chunk
    goes through [clean_data] and [insert_many], which returns the number of
    inserted ids or raises (that chunk is then counted as failed).
    [max_records] is [None] or a count; [if max_records] is false for [0].
    [_create_indexes] swallows its own errors and changes no count;
    the timing fields are left out. *)

Record load_stats := {
  total_records : nat;
  inserted_records : nat;
  failed_records : nat;
  status : string;
  error_message : option string }.

Definition max_truthy (max_records : option nat) : bool :=
  match max_records with
  | Some (S _) => true
  | _ => false
  end.

Section Loader.

Variable clean_data : list doc -> list doc.
Variable insert_many : list doc -> outcome nat.

Fixpoint load_chunks (max_records : option nat) (chunks : list (outcome (list doc)))
    (total inserted failed : nat) : nat * nat * nat * option exn :=
  match chunks with
  | [] => (total, inserted, failed, None)
  | Raise e :: _ => (total, inserted, failed, Some e)
  | Ok chunk :: rest =>
      let m := match max_records with Some m => m | None => 0 end in
      if max_truthy max_records && Nat.leb m total then (total, inserted, failed, None)
      else
        let records := clean_data chunk in
        let records := if max_truthy max_records then firstn (m - total) records else records in
        match insert_many records with
        | Ok n => load_chunks max_records rest (total + List.length records) (inserted + n) failed
        | Raise _ => load_chunks max_records rest total inserted (failed + List.length records)
        end
  end.

(** [existing_count] is [count_documents({})], the first call in the [try]. *)
Definition load_csv_to_mongodb (existing_count : outcome nat)
    (chunks : list (outcome (list doc))) (max_records : option nat) : load_stats :=
  match existing_count with
  | Raise e => {| total_records := 0; inserted_records := 0; failed_records := 0;
                  status := "error"; error_message := Some (exn_str e) |}
  | Ok _ =>
      match load_chunks max_records chunks 0 0 0 with
      | (t, i, f, None) => {| total_records := t; inserted_records := i; failed_records := f;
                              status := "success"; error_message := None |}
      | (t, i, f, Some e) => {| total_records := t; inserted_records := i; failed_records := f;
                                status := "error"; error_message := Some (exn_str e) |}
      end
  end.

End Loader.

(** ** The chat page of [src/app.py]

    The page keeps its own transcript [st.session_state.messages] beside the
    assistant's [conversation_history].  A submitted input (an empty one is
    falsy and ignored) is appended as a user message, the assistant's
    [query] runs and its answer is appended; [query] itself never raises, so
    the page's [except] branch is not reached.  "Clear Conversation" empties
    the transcript and calls [reset_conversation]. *)


Section UI.

Variable invoke : string -> list message -> outcome (list (string * string)).



End UI.

(** ** Concrete inputs used by the examples, witnesses and counterexamples *)

(** [n] purchase orders of fiscal year 2013-2014. *)
Definition demo_store (n : nat) : list doc :=
  map (fun i => [("Fiscal Year", JStr "2013-2014"); ("Total Price", JNum (Z.of_nat (S i)))])
      (seq 0 n).

(** A server that knows no operator condition and no other stage. *)
Definition no_cond (k : string) (c : json) (d : doc) : bool := false.

Definition no_stage (op : string) (arg : json) (docs : list doc) : outcome (list doc) :=
  Raise (PyError "OperationFailure" ("Unrecognized pipeline stage name: '" ++ op ++ "'")).

(** [json.loads] on the payloads used below. *)
(** The payload [{"query": null}]. *)
Definition null_query_payload : string :=
  let dq := String (ascii_of_nat 34) EmptyString in
  "{" ++ dq ++ "query" ++ dq ++ ": null}".

Definition demo_loads (s : string) : outcome json :=
  if String.eqb s "{}" then Ok (JObj [])
  else if String.eqb s "[]" then Ok (JArr [])
  else if String.eqb s null_query_payload then Ok (JObj [("query", JNull)])
  else Raise (JSONDecodeError "Expecting value: line 1 column 1 (char 0)").

Example any_has_limit_ex1 :
  any_has_limit [JObj [("$match", JObj [])]; JObj [("$limit", JNum 5)]] = Ok true.
Proof. reflexivity. Qed.

Example any_has_limit_ex2 : any_has_limit [JNum 1] =
  Raise (PyError "TypeError" "argument of type 'int' is not iterable").
Proof. reflexivity. Qed.

Example nat_to_string_ex : nat_to_string 100 = "100".
Proof. reflexivity. Qed.

Example find_ex :
  execute_query (demo_store 3) no_cond (JObj [("Total Price", JNum 2)]) 100 =
  Ok [[("Fiscal Year", JStr "2013-2014"); ("Total Price", JNum 2)]].
Proof. reflexivity. Qed.

(** ** Lemmas on the executor *)

Lemma run_pipeline_app : forall ec es p q docs,
  run_pipeline ec es (p ++ q)%list docs = bind (run_pipeline ec es p docs) (run_pipeline ec es q).
Proof.
  intros ec es p; induction p as [|st p IH]; intros q docs; simpl.
  - reflexivity.
  - destruct (eval_stage ec es st docs); simpl; auto.
Qed.

Lemma eval_limit_stage : forall ec es limit docs,
  eval_stage ec es (limit_stage limit) docs =
  if Z.ltb 0 (Z.of_nat limit) then Ok (firstn limit docs)
  else Raise (PyError "OperationFailure" "the limit must be positive").
Proof.
  intros. unfold limit_stage, eval_stage. simpl.
  destruct (Z.ltb 0 (Z.of_nat limit)); [rewrite Nat2Z.id|]; reflexivity.
Qed.

Lemma cursor_limit_length : forall n xs, 0 < n -> List.length (cursor_limit n xs) <= n.
Proof.
  intros [|n] xs H; [lia|]. unfold cursor_limit. apply firstn_le_length.
Qed.

Lemma execute_aggregation_no_limit : forall coll ec es p limit,
  any_has_limit p = Ok false ->
  execute_aggregation coll ec es p limit =
  ((p ++ [limit_stage limit])%list,
   bind (aggregate coll ec es p) (fun docs => eval_stage ec es (limit_stage limit) docs)).
Proof.
  intros coll ec es p limit H. unfold execute_aggregation. rewrite H. f_equal.
  unfold aggregate. rewrite run_pipeline_app.
  destruct (run_pipeline ec es p coll) as [docs|e]; cbn [bind]; [|reflexivity].
  cbn [run_pipeline]. destruct (eval_stage ec es (limit_stage limit) docs); reflexivity.
Qed.

Lemma appended_limit_bound : forall coll ec es p limit rs,
  any_has_limit p = Ok false ->
  snd (execute_aggregation coll ec es p limit) = Ok rs -> List.length rs <= limit.
Proof.
  intros coll ec es p limit rs Hno Hrs.
  rewrite execute_aggregation_no_limit in Hrs by exact Hno. cbn [snd] in Hrs.
  destruct (aggregate coll ec es p) as [docs|e]; cbn [bind] in Hrs; [|discriminate].
  rewrite eval_limit_stage in Hrs.
  destruct (Z.ltb 0 (Z.of_nat limit)); [|discriminate].
  injection Hrs as <-. apply firstn_le_length.
Qed.

Lemma execute_query_length : forall coll ec q limit rs,
  0 < limit -> execute_query coll ec q limit = Ok rs -> List.length rs <= limit.
Proof.
  intros coll ec q limit rs Hpos Hq.
  destruct q; try discriminate; simpl in Hq; injection Hq as <-;
    apply cursor_limit_length; exact Hpos.
Qed.

(** ** C1: the executor's result-size bound *)

(** Claim C1 (as amended): a lookup with a positive [limit] returns at most
    [limit] records, whatever the filter (a [null] filter is [find()] over
    the whole store); an aggregation whose stages carry no [$limit] key gets
    [{"$limit": limit}] appended and returns at most [limit] results; a
    pipeline that already has a [$limit] stage is run as authored. *)
Theorem executor_result_bounded : forall coll ec es,
  (forall q limit rs, 0 < limit ->
     execute_query coll ec q limit = Ok rs -> List.length rs <= limit) /\
  (forall p limit p' rs, any_has_limit p = Ok false ->
     execute_aggregation coll ec es p limit = (p', Ok rs) -> List.length rs <= limit) /\
  (forall p limit, any_has_limit p = Ok true ->
     execute_aggregation coll ec es p limit = (p, aggregate coll ec es p)).
Proof.
  intros coll ec es. split; [|split].
  - exact (execute_query_length coll ec).
  - intros p limit p' rs Hno Hagg.
    apply (appended_limit_bound coll ec es p limit rs Hno).
    rewrite Hagg. reflexivity.
  - intros p limit H. unfold execute_aggregation. rewrite H. reflexivity.
Qed.

Lemma executor_result_bounded_witness :
  List.length (firstn 100 (demo_store 150)) <= 100 /\
  List.length (firstn 100 (demo_store 150)) <= 100 /\
  execute_aggregation (demo_store 150) no_cond no_stage [JObj [("$limit", JNum 200)]] 100 =
  ([JObj [("$limit", JNum 200)]],
   aggregate (demo_store 150) no_cond no_stage [JObj [("$limit", JNum 200)]]).
Proof.
  destruct (executor_result_bounded (demo_store 150) no_cond no_stage) as [H1 [H2 H3]].
  split; [|split].
  - apply (H1 JNull 100); [lia | vm_compute; reflexivity].
  - apply (H2 [JObj [("$match", JObj [])]] 100
             [JObj [("$match", JObj [])]; limit_stage 100]);
      vm_compute; reflexivity.
  - apply H3. vm_compute. reflexivity.
Defined.

(** Claim C1 fails as stated: a pipeline that already holds a larger
    [$limit] stage gets no [$limit: 100] appended, and 150 matching records
    yield 150 > 100 results. *)
Lemma executor_result_bounded_counterexample :
  match snd (execute_aggregation (demo_store 150) no_cond no_stage
               [JObj [("$limit", JNum 200)]] 100) with
  | Ok rs => Nat.ltb 100 (List.length rs)
  | Raise _ => false
  end = true.
Proof. vm_compute. reflexivity. Qed.

(** ** C8: [execute_aggregation] and the caller's stage list *)

(** Claim C8: when no stage has a [$limit] key, the caller's list object
    holds, after the call, one more stage [{"$limit": limit}]: the stage
    list passed in is changed by the call. *)
Theorem execute_aggregation_mutates_caller_pipeline : forall coll ec es p limit,
  any_has_limit p = Ok false ->
  fst (execute_aggregation coll ec es p limit) = (p ++ [limit_stage limit])%list /\
  fst (execute_aggregation coll ec es p limit) <> p.
Proof.
  intros coll ec es p limit H.
  rewrite execute_aggregation_no_limit by exact H. cbn [fst].
  split; [reflexivity|].
  intro Heq. apply (f_equal (@List.length json)) in Heq.
  rewrite length_app in Heq. simpl in Heq. lia.
Qed.

Lemma execute_aggregation_mutates_caller_pipeline_witness :
  fst (execute_aggregation (demo_store 3) no_cond no_stage
         [JObj [("$match", JObj [("Fiscal Year", JStr "2013-2014")])]] 100) =
    [JObj [("$match", JObj [("Fiscal Year", JStr "2013-2014")])]; limit_stage 100] /\
  fst (execute_aggregation (demo_store 3) no_cond no_stage
         [JObj [("$match", JObj [("Fiscal Year", JStr "2013-2014")])]] 100) <>
    [JObj [("$match", JObj [("Fiscal Year", JStr "2013-2014")])]].
Proof.
  apply (execute_aggregation_mutates_caller_pipeline (demo_store 3) no_cond no_stage
           [JObj [("$match", JObj [("Fiscal Year", JStr "2013-2014")])]] 100).
  vm_compute. reflexivity.
Defined.

(** ** C2: a turn that fails *)

(** Claim C2 (as amended): when [agent_executor.invoke] (or the set-up
    before it) raises, [query] returns the single string
    ["I encountered an error while processing your question: " + str(e)]
    and the conversation history is left as it was: the question is not
    recorded. *)
Theorem query_failure_keeps_history : forall invoke h q e,
  invoke q (format_chat_history h) = Raise e ->
  query invoke h q = (error_prefix ++ exn_str e, h).
Proof.
  intros invoke h q e H. unfold query. rewrite H. reflexivity.
Qed.

(** The store is down for the whole turn. *)
Definition store_down (q : string) (h : list message) : outcome (list (string * string)) :=
  Raise (PyError "ServerSelectionTimeoutError" "localhost:27017: [Errno 111] Connection refused").

Lemma query_failure_keeps_history_witness :
  query store_down [] "What was the total spending in fiscal year 2013-2014?" =
  (error_prefix ++ "localhost:27017: [Errno 111] Connection refused", []).
Proof.
  apply (query_failure_keeps_history store_down [] "What was the total spending in fiscal year 2013-2014?"
           (PyError "ServerSelectionTimeoutError" "localhost:27017: [Errno 111] Connection refused")).
  reflexivity.
Defined.

(** Claim C2 fails as stated: after the failed turn no entry of the
    history carries the question. *)
Lemma query_failure_counterexample :
  existsb (fun t => String.eqb (content t) "What was the total spending in fiscal year 2013-2014?")
          (snd (query store_down [] "What was the total spending in fiscal year 2013-2014?")) = false.
Proof. vm_compute. reflexivity. Qed.

(** ** C3, C5, C10: the tool adapter *)

Lemma firstn_all_le : forall {A} n (l : list A), List.length l <= n -> firstn n l = l.
Proof. intros A n l H. apply firstn_all2. exact H. Qed.

(** Claim C3 (as amended): for a parsed payload whose query the executor
    answers with the list [rs], the tool returns
    [{"message": "No results found", "count": 0}] when [rs] is empty, and
    otherwise [count] = the length of [rs] (the executor's capped result,
    not the store's true match count), the first 10 elements of [rs], and
    a note ["Showing first 10 of <len rs> results"] when [rs] has more than
    10 elements, [""] otherwise.  [len rs] is at most 100 for a lookup
    (whatever its filter, [null] included) and for an aggregation whose
    pipeline has no [$limit] key of its own. *)
Theorem tool_summary_counts_executor_results : forall coll ec es loads qt payload qd rs,
  loads payload = Ok qd ->
  (if String.eqb qt "aggregate" then run_aggregate coll ec es qd else run_find coll ec qd) = Ok rs ->
  execute_mongodb_query coll ec es loads qt payload =
  Ok (match rs with
      | [] => JObj [("message", JStr "No results found"); ("count", JNum 0)]
      | _ => JObj [("count", JNum (Z.of_nat (List.length rs)));
                   ("results", JArr (map JObj (firstn 10 rs)));
                   ("note", JStr (if Nat.ltb 10 (List.length rs)
                                  then "Showing first 10 of " ++ nat_to_string (List.length rs) ++ " results"
                                  else ""))]
      end) /\
  (String.eqb qt "aggregate" = false -> List.length rs <= 100) /\
  (forall p, String.eqb qt "aggregate" = true ->
     (qd = JArr p \/ dict_get qd "pipeline" (JArr []) = Ok (JArr p)) ->
     any_has_limit p = Ok false -> List.length rs <= 100).
Proof.
  intros coll ec es loads qt payload qd rs Hl Hr. split; [|split].
  - unfold execute_mongodb_query, execute_mongodb_query_body.
    rewrite Hl. cbn [bind]. rewrite Hr. cbn [bind].
    destruct rs as [|d rs']; [reflexivity|].
    unfold format_results, summary.
    destruct (Nat.ltb 10 (List.length (d :: rs'))) eqn:Hlt; [reflexivity|].
    apply Nat.ltb_ge in Hlt. rewrite (firstn_all_le 10 (d :: rs') Hlt). reflexivity.
  - intros Hqt. rewrite Hqt in Hr. unfold run_find in Hr.
    destruct (dict_get qd "query" (JObj [])) as [fq|e]; cbn [bind] in Hr; [|discriminate].
    apply (execute_query_length coll ec fq 100 rs); [lia | exact Hr].
  - intros p Hqt Hp Hno. rewrite Hqt in Hr. unfold run_aggregate in Hr.
    assert (Hsel : (match qd with
                    | JArr _ => Ok qd
                    | _ => dict_get qd "pipeline" (JArr [])
                    end) = Ok (JArr p)).
    { destruct Hp as [-> | Hp]; [reflexivity|].
      destruct qd; try exact Hp; discriminate. }
    rewrite Hsel in Hr. cbn [bind] in Hr.
    exact (appended_limit_bound coll ec es p 100 rs Hno Hr).
Qed.

Lemma tool_summary_counts_executor_results_witness :
  execute_mongodb_find (demo_store 150) no_cond no_stage demo_loads null_query_payload =
  Ok (JObj [("count", JNum 100);
            ("results", JArr (map JObj (firstn 10 (demo_store 150))));
            ("note", JStr "Showing first 10 of 100 results")]) /\
  List.length (firstn 100 (demo_store 150)) <= 100 /\
  List.length (firstn 100 (demo_store 150)) <= 100.
Proof.
  destruct (tool_summary_counts_executor_results (demo_store 150) no_cond no_stage demo_loads
              "find" null_query_payload (JObj [("query", JNull)]) (firstn 100 (demo_store 150)))
    as [H1 [H2 _]]; [vm_compute; reflexivity | vm_compute; reflexivity |].
  destruct (tool_summary_counts_executor_results (demo_store 150) no_cond no_stage demo_loads
              "aggregate" "[]" (JArr []) (firstn 100 (demo_store 150)))
    as [_ [_ H3]]; [vm_compute; reflexivity | vm_compute; reflexivity |].
  split; [|split].
  - unfold execute_mongodb_find. rewrite H1. vm_compute. reflexivity.
  - apply H2. reflexivity.
  - apply (H3 []); [reflexivity | left; reflexivity | reflexivity].
Defined.

(** Claim C3 fails as stated: with 150 matching records, the find tool
    reports a count of 100 (the executor's cap), not the 150 records that
    match. *)
Lemma tool_summary_true_count_counterexample :
  match execute_mongodb_find (demo_store 150) no_cond no_stage demo_loads "{}" with
  | Ok (JObj kvs) =>
      match lookup_key "count" kvs with
      | Some (JNum c) =>
          negb (Z.eqb c (Z.of_nat (List.length (filter (matches no_cond []) (demo_store 150)))))
      | _ => false
      end
  | _ => false
  end = true.
Proof. vm_compute. reflexivity. Qed.

(** Claim C5: a payload that [json.loads] rejects makes either tool return
    the structured error object [{"error": "Invalid JSON format: <message>"}]
    (the failure message is its only field); nothing is raised past the
    tool. *)
Theorem tool_malformed_payload_error : forall coll ec es loads qt payload msg,
  loads payload = Raise (JSONDecodeError msg) ->
  execute_mongodb_query coll ec es loads qt payload =
  Ok (JObj [("error", JStr ("Invalid JSON format: " ++ msg))]).
Proof.
  intros coll ec es loads qt payload msg H.
  unfold execute_mongodb_query, execute_mongodb_query_body. rewrite H. reflexivity.
Qed.

Lemma tool_malformed_payload_error_witness :
  execute_mongodb_aggregate (demo_store 3) no_cond no_stage demo_loads "not json" =
  Ok (JObj [("error", JStr "Invalid JSON format: Expecting value: line 1 column 1 (char 0)")]).
Proof.
  apply (tool_malformed_payload_error (demo_store 3) no_cond no_stage demo_loads
           "aggregate" "not json" "Expecting value: line 1 column 1 (char 0)").
  reflexivity.
Defined.

Lemma filter_all_true : forall {A} (f : A -> bool) l,
  (forall x, f x = true) -> filter f l = l.
Proof.
  intros A f l Hf. induction l as [|x l IH]; simpl; [reflexivity|].
  rewrite Hf, IH. reflexivity.
Qed.

(** Claim C10: a payload that parses to a JSON object without a ["query"]
    field makes the find tool run the empty filter, which matches every
    record: the first 100 records of the store; an object without a
    ["pipeline"] field makes the aggregate tool run the empty pipeline, to
    which only [{"$limit": 100}] is added. *)
Theorem tool_missing_field_defaults : forall coll ec es loads payload kvs,
  loads payload = Ok (JObj kvs) ->
  (lookup_key "query" kvs = None ->
     run_find coll ec (JObj kvs) = execute_query coll ec (JObj []) 100 /\
     execute_mongodb_find coll ec es loads payload = Ok (format_results (firstn 100 coll))) /\
  (lookup_key "pipeline" kvs = None ->
     run_aggregate coll ec es (JObj kvs) = snd (execute_aggregation coll ec es [] 100) /\
     fst (execute_aggregation coll ec es [] 100) = [limit_stage 100] /\
     execute_mongodb_aggregate coll ec es loads payload = Ok (format_results (firstn 100 coll))).
Proof.
  intros coll ec es loads payload kvs Hl. split.
  - intros Hq.
    assert (Hf : run_find coll ec (JObj kvs) = execute_query coll ec (JObj []) 100)
      by (unfold run_find, dict_get; rewrite Hq; reflexivity).
    split; [exact Hf|].
    unfold execute_mongodb_find, execute_mongodb_query, execute_mongodb_query_body.
    rewrite Hl. cbn [bind]. simpl String.eqb. cbv iota. rewrite Hf.
    unfold execute_query. rewrite filter_all_true by reflexivity. reflexivity.
  - intros Hp.
    assert (Ha : run_aggregate coll ec es (JObj kvs) = snd (execute_aggregation coll ec es [] 100))
      by (unfold run_aggregate, dict_get; rewrite Hp; reflexivity).
    split; [exact Ha|]. split; [reflexivity|].
    unfold execute_mongodb_aggregate, execute_mongodb_query, execute_mongodb_query_body.
    rewrite Hl. cbn [bind]. simpl String.eqb. cbv iota. rewrite Ha.
    reflexivity.
Qed.

Lemma tool_missing_field_defaults_witness :
  (run_find (demo_store 150) no_cond (JObj []) = execute_query (demo_store 150) no_cond (JObj []) 100 /\
   execute_mongodb_find (demo_store 150) no_cond no_stage demo_loads "{}" =
     Ok (format_results (firstn 100 (demo_store 150)))) /\
  (run_aggregate (demo_store 150) no_cond no_stage (JObj []) =
     snd (execute_aggregation (demo_store 150) no_cond no_stage [] 100) /\
   fst (execute_aggregation (demo_store 150) no_cond no_stage [] 100) = [limit_stage 100] /\
   execute_mongodb_aggregate (demo_store 150) no_cond no_stage demo_loads "{}" =
     Ok (format_results (firstn 100 (demo_store 150)))).
Proof.
  destruct (tool_missing_field_defaults (demo_store 150) no_cond no_stage demo_loads "{}" []
              eq_refl) as [H1 H2].
  split; [apply H1 | apply H2]; reflexivity.
Defined.

(** ** C4: quarter derivation *)

Lemma existsb_eqb_false : forall (m : Z) l,
  (forall x, In x l -> m <> x) -> existsb (Z.eqb m) l = false.
Proof.
  intros m l H. induction l as [|x l IH]; simpl; [reflexivity|].
  rewrite IH by (intros y Hy; apply H; right; exact Hy).
  destruct (Z.eqb_spec m x) as [E|E]; [|reflexivity].
  exfalso. apply (H x); [left; reflexivity | exact E].
Qed.

(** Claim C4: months 7, 8, 9 give "Q1"; 10, 11, 12 give "Q2"; 1, 2, 3 give
    "Q3"; 4, 5, 6 give "Q4"; every other integer gives "Unknown" (the
    mapping is total). *)
Theorem quarter_of_month_spec : forall m : Z,
  ((7 <= m <= 9)%Z -> quarter_of_month m = "Q1") /\
  ((10 <= m <= 12)%Z -> quarter_of_month m = "Q2") /\
  ((1 <= m <= 3)%Z -> quarter_of_month m = "Q3") /\
  ((4 <= m <= 6)%Z -> quarter_of_month m = "Q4") /\
  ((m < 1 \/ 12 < m)%Z -> quarter_of_month m = "Unknown").
Proof.
  intros m. repeat split; intros Hm.
  - assert (m = 7 \/ m = 8 \/ m = 9)%Z as Hc by lia.
    destruct Hc as [-> | [-> | ->]]; reflexivity.
  - assert (m = 10 \/ m = 11 \/ m = 12)%Z as Hc by lia.
    destruct Hc as [-> | [-> | ->]]; reflexivity.
  - assert (m = 1 \/ m = 2 \/ m = 3)%Z as Hc by lia.
    destruct Hc as [-> | [-> | ->]]; reflexivity.
  - assert (m = 4 \/ m = 5 \/ m = 6)%Z as Hc by lia.
    destruct Hc as [-> | [-> | ->]]; reflexivity.
  - unfold quarter_of_month, quarter_branches. cbn [switch_in].
    repeat rewrite existsb_eqb_false by (intros x Hx; simpl in Hx; lia).
    reflexivity.
Qed.

Lemma quarter_of_month_spec_witness :
  quarter_of_month 8 = "Q1" /\ quarter_of_month 11 = "Q2" /\ quarter_of_month 2 = "Q3" /\
  quarter_of_month 5 = "Q4" /\ quarter_of_month 13 = "Unknown".
Proof.
  split; [apply (quarter_of_month_spec 8); lia|].
  split; [apply (quarter_of_month_spec 11); lia|].
  split; [apply (quarter_of_month_spec 2); lia|].
  split; [apply (quarter_of_month_spec 5); lia|].
  apply (quarter_of_month_spec 13); lia.
Defined.

(** ** C6: the conversation window *)

Lemma fold_append_turn : forall ts h,
  fold_left append_turn ts h = (h ++ ts)%list.
Proof.
  induction ts as [|t ts IH]; intros h; simpl.
  - rewrite app_nil_r. reflexivity.
  - rewrite IH. unfold append_turn. rewrite <- app_assoc. reflexivity.
Qed.

(** Claim C6: whatever the history [h], after appending 12 turns the
    window handed to the agent is the last 10 of them, in order (as
    messages), and after [reset_conversation] the window is empty. *)
Theorem chat_window_last_ten : forall h ts,
  List.length ts = 12 ->
  format_chat_history (fold_left append_turn ts h) = map to_message (skipn 2 ts) /\
  format_chat_history (reset_conversation h) = [].
Proof.
  intros h ts Hlen. split; [|reflexivity].
  rewrite fold_append_turn. unfold format_chat_history, py_last. f_equal.
  rewrite length_app, Hlen, skipn_app.
  rewrite skipn_all2 by lia.
  replace (List.length h + 12 - 10 - List.length h) with 2 by lia.
  reflexivity.
Qed.

Definition demo_turn (i : nat) : turn :=
  {| role := if Nat.even i then "user" else "assistant"; content := nat_to_string i |}.

Lemma chat_window_last_ten_witness :
  format_chat_history (fold_left append_turn (map demo_turn (seq 1 12)) [demo_turn 0]) =
    map to_message (skipn 2 (map demo_turn (seq 1 12))) /\
  format_chat_history (reset_conversation [demo_turn 0]) = [].
Proof.
  apply (chat_window_last_ten [demo_turn 0] (map demo_turn (seq 1 12))). reflexivity.
Defined.

(** ** C7: the iteration budget *)

Lemma agent_loop_bound : forall plan run_tool k budget steps o steps' n ex,
  (forall st calls, plan st = Ok (AgentActions calls) -> List.length calls <= k) ->
  agent_loop plan run_tool budget steps = Ok (o, steps', n, ex) ->
  n <= budget * k /\ (ex = true -> o = stopped_output).
Proof.
  intros plan run_tool k budget. induction budget as [|b IH];
    intros steps o steps' n ex Hk Hrun; simpl in Hrun.
  - injection Hrun as <- <- <- <-. split; [lia | reflexivity].
  - destruct (plan steps) as [d|e] eqn:Hp; cbn [bind] in Hrun; [|discriminate].
    destruct d as [o0|calls|obs].
    + injection Hrun as <- <- <- <-. split; [lia | discriminate].
    + destruct (agent_loop plan run_tool b (steps ++ map (fun c => (c, run_tool c)) calls)%list)
        as [[[[o1 s1] n1] ex1]|e] eqn:Hr; cbn [bind] in Hrun; [|discriminate].
      injection Hrun as <- <- <- <-.
      destruct (IH _ _ _ _ _ Hk Hr) as [Hn Hex].
      specialize (Hk steps calls Hp). split; [nia | exact Hex].
    + destruct (IH _ _ _ _ _ Hk Hrun) as [Hn Hex]. split; [nia | exact Hex].
Qed.

(** Claim C7 (as amended): a question runs at most [MAX_ITERATIONS] (3)
    agent iterations, and each iteration executes every tool call the
    model emitted in it; so if the model emits at most [k] calls per
    message, at most [3 * k] tools run (3 when it emits one at a time).
    When the budget runs out, [query] returns the executor's stop message,
    a non-empty string. *)
Theorem agent_iteration_budget : forall plan run_tool k hist q o steps n ex,
  (forall st calls, plan q (format_chat_history hist) st = Ok (AgentActions calls) ->
                    List.length calls <= k) ->
  agent_loop (plan q (format_chat_history hist)) run_tool MAX_ITERATIONS [] = Ok (o, steps, n, ex) ->
  n <= MAX_ITERATIONS * k /\
  (ex = true ->
   fst (query (fun q' h' => agent_executor_invoke (plan q' h') run_tool) hist q) = stopped_output /\
   stopped_output <> "").
Proof.
  intros plan run_tool k hist q o steps n ex Hk Hrun.
  destruct (agent_loop_bound _ _ k _ _ _ _ _ _ Hk Hrun) as [Hn Hex].
  split; [exact Hn|]. intros He. split; [|discriminate].
  unfold query, agent_executor_invoke. rewrite Hrun. cbn [bind].
  rewrite (Hex He). reflexivity.
Qed.

Definition demo_call : tool_call :=
  {| tool_name := "execute_mongodb_find"; tool_input := "{}" |}.

(** A model that always asks for one more lookup. *)
Definition one_call_plan (q : string) (h : list message) (steps : list (tool_call * string))
  : outcome agent_decision :=
  Ok (AgentActions [demo_call]).

(** A model that emits two tool calls in each message. *)
Definition two_calls_plan (q : string) (h : list message) (steps : list (tool_call * string))
  : outcome agent_decision :=
  Ok (AgentActions [demo_call; demo_call]).

Lemma agent_iteration_budget_witness :
  3 <= MAX_ITERATIONS * 1 /\
  (true = true ->
   fst (query (fun q' h' => agent_executor_invoke (one_call_plan q' h') (fun _ => "{}")) [] "Q") =
     stopped_output /\ stopped_output <> "").
Proof.
  apply (agent_iteration_budget one_call_plan (fun _ => "{}") 1 [] "Q" stopped_output
           [(demo_call, "{}"); (demo_call, "{}"); (demo_call, "{}")] 3 true).
  - intros st calls H. injection H as <-. simpl. lia.
  - vm_compute. reflexivity.
Defined.

(** Claim C7 fails as stated: a model that emits two tool calls per
    message gets six tools run within the three iterations. *)
Lemma agent_iteration_budget_counterexample :
  match agent_loop (two_calls_plan "Q" []) (fun _ => "{}") MAX_ITERATIONS [] with
  | Ok (_, _, n, _) => Nat.ltb MAX_ITERATIONS n
  | Raise _ => false
  end = true.
Proof. vm_compute. reflexivity. Qed.

(** * Further properties of the code *)

(** ** Executor helpers for the [DataExplorer] pipelines *)


Lemma any_has_limit_app_limit : forall p n,
  any_has_limit p = Ok false -> any_has_limit (p ++ [limit_stage n])%list = Ok true.
Proof.
  induction p as [|st p IH]; intros n H; simpl in *; [reflexivity|].
  destruct (py_contains "$limit" st) as [[|]|e]; try discriminate.
  apply IH. exact H.
Qed.

(** A pipeline that ends in its own [$limit: n] stage. *)
Lemma own_limit_pipeline : forall coll ec es p n limit,
  any_has_limit p = Ok false ->
  execute_aggregation coll ec es (p ++ [limit_stage n])%list limit =
    ((p ++ [limit_stage n])%list,
     bind (aggregate coll ec es p) (eval_stage ec es (limit_stage n))).
Proof.
  intros coll ec es p n limit H. unfold execute_aggregation.
  rewrite (any_has_limit_app_limit p n H). f_equal.
  unfold aggregate. rewrite run_pipeline_app.
  destruct (run_pipeline ec es p coll) as [docs|e]; cbn [bind]; [|reflexivity].
  cbn [run_pipeline]. destruct (eval_stage ec es (limit_stage n) docs); reflexivity.
Qed.

Lemma own_limit_result : forall coll ec es p n limit,
  any_has_limit p = Ok false ->
  fst (execute_aggregation coll ec es (p ++ [limit_stage n])%list limit) = (p ++ [limit_stage n])%list /\
  (0 < n -> forall rs,
     snd (execute_aggregation coll ec es (p ++ [limit_stage n])%list limit) = Ok rs ->
     List.length rs <= n) /\
  (n = 0 -> forall rs,
     snd (execute_aggregation coll ec es (p ++ [limit_stage n])%list limit) <> Ok rs).
Proof.
  intros coll ec es p n limit H.
  rewrite (own_limit_pipeline coll ec es p n limit H). cbn [fst snd].
  split; [reflexivity|]. split.
  - intros Hn rs Hrs.
    destruct (aggregate coll ec es p) as [docs|e]; cbn [bind] in Hrs; [|discriminate].
    rewrite eval_limit_stage in Hrs.
    destruct (Z.ltb 0 (Z.of_nat n)); [|discriminate].
    injection Hrs as <-. apply firstn_le_length.
  - intros -> rs Hrs.
    destruct (aggregate coll ec es p) as [docs|e]; cbn [bind] in Hrs; [|discriminate].
    rewrite eval_limit_stage in Hrs. discriminate.
Qed.

(** X1: the analyses without a [$limit] stage of their own return at most
    the limit they pass (10 fiscal years, 50 acquisition methods, 50
    quarter groups), whatever the grouping and sorting stages produce. *)
Theorem explorer_appended_limits : forall coll ec es,
  (forall rs, analyze_spending_by_fiscal_year coll ec es = Ok rs -> List.length rs <= 10) /\
  (forall rs, analyze_acquisition_methods coll ec es = Ok rs -> List.length rs <= 50) /\
  (forall fy rs, analyze_quarterly_spending coll ec es fy = Ok rs -> List.length rs <= 50).
Proof.
  intros coll ec es. split; [|split].
  - intros rs H. exact (appended_limit_bound coll ec es fiscal_year_pipeline 10 rs eq_refl H).
  - intros rs H. exact (appended_limit_bound coll ec es acquisition_methods_pipeline 50 rs eq_refl H).
  - intros fy rs H. exact (appended_limit_bound coll ec es (quarterly_pipeline fy) 50 rs eq_refl H).
Qed.

Lemma explorer_appended_limits_witness :
  List.length (firstn 10 (demo_store 3)) <= 10 /\
  List.length (firstn 50 (demo_store 3)) <= 50 /\
  List.length (firstn 50 (demo_store 3)) <= 50.
Proof.
  set (es := fun (op : string) (arg : json) (docs : list doc) => Ok docs : outcome (list doc)).
  set (ec := fun (k : string) (c : json) (d : doc) => true).
  destruct (explorer_appended_limits (demo_store 3) ec es) as [H1 [H2 H3]].
  split; [|split].
  - apply H1. vm_compute. reflexivity.
  - apply H2. vm_compute. reflexivity.
  - apply (H3 None). vm_compute. reflexivity.
Defined.

Lemma top_n_pipelines_shape : forall n,
  department_pipeline n = (firstn 3 (department_pipeline n) ++ [limit_stage n])%list /\
  any_has_limit (firstn 3 (department_pipeline n)) = Ok false /\
  top_suppliers_pipeline n = (firstn 3 (top_suppliers_pipeline n) ++ [limit_stage n])%list /\
  any_has_limit (firstn 3 (top_suppliers_pipeline n)) = Ok false /\
  top_items_pipeline n = (firstn 3 (top_items_pipeline n) ++ [limit_stage n])%list /\
  any_has_limit (firstn 3 (top_items_pipeline n)) = Ok false.
Proof. intros n. repeat split. Qed.

(** X2: the top-[n] analyses (departments, suppliers, items) end in their
    own [$limit: top_n] stage, so the executor adds none: with [top_n > 0]
    they return at most [top_n] groups, and with [top_n = 0] they never
    return results (the server rejects a [$limit] of 0). *)
Theorem explorer_top_n_limits : forall coll ec es top_n,
  (0 < top_n -> forall rs,
     (analyze_spending_by_department coll ec es top_n = Ok rs \/
      get_top_suppliers coll ec es top_n = Ok rs \/
      get_top_items coll ec es top_n = Ok rs) -> List.length rs <= top_n) /\
  (top_n = 0 -> forall rs,
     analyze_spending_by_department coll ec es top_n <> Ok rs /\
     get_top_suppliers coll ec es top_n <> Ok rs /\
     get_top_items coll ec es top_n <> Ok rs).
Proof.
  intros coll ec es n.
  destruct (top_n_pipelines_shape n) as [E1 [N1 [E2 [N2 [E3 N3]]]]].
  destruct (own_limit_result coll ec es _ n n N1) as [_ [P1 Z1]].
  destruct (own_limit_result coll ec es _ n n N2) as [_ [P2 Z2]].
  destruct (own_limit_result coll ec es _ n n N3) as [_ [P3 Z3]].
  rewrite <- E1 in P1, Z1. rewrite <- E2 in P2, Z2. rewrite <- E3 in P3, Z3.
  unfold analyze_spending_by_department, get_top_suppliers, get_top_items.
  split.
  - intros Hn rs [H|[H|H]]; [apply P1 | apply P2 | apply P3]; assumption.
  - intros Hz rs. split; [|split]; [apply Z1 | apply Z2 | apply Z3]; assumption.
Qed.

Lemma explorer_top_n_limits_witness :
  List.length (firstn 10 (demo_store 30)) <= 10 /\
  analyze_spending_by_department (demo_store 30) (fun _ _ _ => true) (fun _ _ docs => Ok docs) 0 <> Ok [].
Proof.
  destruct (explorer_top_n_limits (demo_store 30) (fun _ _ _ => true) (fun _ _ docs => Ok docs) 10)
    as [H1 _].
  destruct (explorer_top_n_limits (demo_store 30) (fun _ _ _ => true) (fun _ _ docs => Ok docs) 0)
    as [_ H2].
  split.
  - apply H1; [lia|]. left. vm_compute. reflexivity.
  - apply (H2 eq_refl []).
Defined.

Lemma json_eqb_JStr_r : forall v s, json_eqb v (JStr s) = true -> v = JStr s.
Proof.
  intros [| | | s' | |] s H; simpl in H; try discriminate.
  apply String.eqb_eq in H. subst. reflexivity.
Qed.

Lemma json_eqb_JStr_l : forall v s, json_eqb (JStr s) v = true -> v = JStr s.
Proof.
  intros [| | | s' | |] s H; simpl in H; try discriminate.
  apply String.eqb_eq in H. subst. reflexivity.
Qed.

Lemma run_pipeline_match : forall ec es f rest docs,
  run_pipeline ec es (JObj [("$match", JObj f)] :: rest) docs =
  run_pipeline ec es rest (filter (matches ec f) docs).
Proof. reflexivity. Qed.

(** X3: with a non-empty [fiscal_year], the quarterly analysis runs its
    later stages only on stored records whose ["Fiscal Year"] is that value
    (or an array holding it); [None] and [""] both give the pipeline with no
    fiscal-year filter. *)
Theorem quarterly_fiscal_year_filter : forall coll ec es fy,
  fy <> "" ->
  (exists docs,
     analyze_quarterly_spending coll ec es (Some fy) =
       run_pipeline ec es (tl (quarterly_pipeline (Some fy)) ++ [limit_stage 50])%list docs /\
     forall d, In d docs ->
       In d coll /\
       (lookup_key "Fiscal Year" d = Some (JStr fy) \/
        exists xs, lookup_key "Fiscal Year" d = Some (JArr xs) /\ In (JStr fy) xs)) /\
  quarterly_pipeline None = quarterly_pipeline (Some "").
Proof.
  intros coll ec es fy Hfy. split; [|reflexivity].
  assert (Hmc : quarterly_match_conditions (Some fy) =
                [("Total Price", positive_price_cond); ("Fiscal Year", JStr fy)]).
  { unfold quarterly_match_conditions.
    destruct (String.eqb_spec fy "") as [E|_]; [contradiction|]. reflexivity. }
  exists (filter (matches ec (quarterly_match_conditions (Some fy))) coll). split.
  - unfold analyze_quarterly_spending.
    rewrite execute_aggregation_no_limit by reflexivity. cbn [snd].
    unfold aggregate. rewrite run_pipeline_app.
    change (quarterly_pipeline (Some fy)) with
      (JObj [("$match", JObj (quarterly_match_conditions (Some fy)))]
         :: tl (quarterly_pipeline (Some fy))) at 1.
    rewrite run_pipeline_match. reflexivity.
  - intros d Hd. apply filter_In in Hd. destruct Hd as [Hin Hm].
    split; [exact Hin|].
    rewrite Hmc in Hm. unfold matches in Hm. cbn [forallb fst snd] in Hm.
    apply andb_prop in Hm. destruct Hm as [_ Hm]. rewrite andb_true_r in Hm.
    unfold cond_holds in Hm. cbn [is_operator is_operator_expr orb] in Hm.
    destruct (lookup_key "Fiscal Year" d) as [v|]; [|discriminate].
    apply orb_prop in Hm. destruct Hm as [Hm|Hm].
    + left. rewrite (json_eqb_JStr_r v fy Hm). reflexivity.
    + right. destruct v; try discriminate. exists xs. split; [reflexivity|].
      apply existsb_exists in Hm. destruct Hm as [x [Hx Hex]].
      rewrite <- (json_eqb_JStr_l x fy Hex). exact Hx.
Qed.

Lemma quarterly_fiscal_year_filter_witness :
  (exists docs,
     analyze_quarterly_spending (demo_store 4) no_cond no_stage (Some "2013-2014") =
       run_pipeline no_cond no_stage
         (tl (quarterly_pipeline (Some "2013-2014")) ++ [limit_stage 50])%list docs /\
     forall d, In d docs ->
       In d (demo_store 4) /\
       (lookup_key "Fiscal Year" d = Some (JStr "2013-2014") \/
        exists xs, lookup_key "Fiscal Year" d = Some (JArr xs) /\ In (JStr "2013-2014") xs)) /\
  quarterly_pipeline None = quarterly_pipeline (Some "").
Proof.
  apply (quarterly_fiscal_year_filter (demo_store 4) no_cond no_stage "2013-2014").
  discriminate.
Defined.

(** ** [get_schema_info] *)

Lemma lookup_dict_set : forall {A} k k' (v : A) kvs,
  lookup_key k (dict_set k' v kvs) = if String.eqb k k' then Some v else lookup_key k kvs.
Proof.
  intros A k k' v kvs. induction kvs as [|[k'' v''] rest IH]; simpl.
  - reflexivity.
  - destruct (String.eqb_spec k' k'') as [E|E]; simpl.
    + subst k''. destruct (String.eqb k k'); reflexivity.
    + rewrite IH. destruct (String.eqb_spec k k') as [E1|E1];
        destruct (String.eqb_spec k k'') as [E2|E2]; try reflexivity.
      subst. contradiction.
Qed.

(** The entry [distinct_step] gives a field: its value list when the
    [distinct] call succeeds with at most 50 values. *)
Definition distinct_entry (distinct : string -> outcome (list json)) (field : string) : option json :=
  match distinct field with
  | Ok values => if Nat.leb (List.length values) 50 then Some (JArr values) else None
  | Raise _ => None
  end.

Lemma lookup_distinct_step : forall distinct acc f x,
  lookup_key f (distinct_step distinct acc x) =
  if String.eqb f x then
    match distinct_entry distinct x with Some v => Some v | None => lookup_key f acc end
  else lookup_key f acc.
Proof.
  intros distinct acc f x. unfold distinct_step, distinct_entry.
  destruct (distinct x) as [values|e].
  - destruct (Nat.leb (List.length values) 50).
    + rewrite lookup_dict_set. reflexivity.
    + destruct (String.eqb f x); reflexivity.
  - destruct (String.eqb f x); reflexivity.
Qed.

Lemma lookup_fold_distinct_step : forall distinct f l acc,
  lookup_key f (fold_left (distinct_step distinct) l acc) =
  if existsb (String.eqb f) l then
    match distinct_entry distinct f with Some v => Some v | None => lookup_key f acc end
  else lookup_key f acc.
Proof.
  intros distinct f l. induction l as [|x l IH]; intros acc; simpl; [reflexivity|].
  rewrite IH, lookup_distinct_step.
  destruct (String.eqb_spec f x) as [->|E]; simpl.
  - destruct (existsb (String.eqb x) l); destruct (distinct_entry distinct x); reflexivity.
  - reflexivity.
Qed.

(** X6: the ["distinct_values"] of [get_schema_info] holds exactly the
    categorical fields whose [distinct] query succeeded with at most 50
    values, each with that list; a field whose query raises or returns more
    than 50 values is left out without the call failing. *)
Theorem get_schema_info_distinct_values : forall coll distinct sample rest,
  coll = sample :: rest -> sample <> [] ->
  exists schema dv,
    get_schema_info coll distinct =
      JObj [("fields", JObj schema); ("sample_document", JObj sample); ("distinct_values", JObj dv)] /\
    forall f, lookup_key f dv =
      if existsb (String.eqb f) categorical_fields then
        match distinct f with
        | Ok values => if Nat.leb (List.length values) 50 then Some (JArr values) else None
        | Raise _ => None
        end
      else None.
Proof.
  intros coll distinct sample rest -> Hne.
  destruct sample as [|kv0 sample']; [contradiction|].
  eexists. exists (fold_left (distinct_step distinct) categorical_fields []).
  split; [reflexivity|].
  intros f. rewrite lookup_fold_distinct_step. unfold distinct_entry.
  destruct (existsb (String.eqb f) categorical_fields); [|reflexivity].
  destruct (distinct f) as [values|e]; [|reflexivity].
  destruct (Nat.leb (List.length values) 50); reflexivity.
Qed.

(** A server on which [distinct("CalCard")] fails and the department list
    is too long. *)
Definition demo_distinct (field : string) : outcome (list json) :=
  if String.eqb field "CalCard" then Raise (PyError "OperationFailure" "distinct too big")
  else if String.eqb field "Department Name" then Ok (map (fun i => JNum (Z.of_nat i)) (seq 0 60))
  else Ok [JStr "2012-2013"; JStr "2013-2014"].

Lemma get_schema_info_distinct_values_witness :
  exists schema dv,
    get_schema_info (demo_store 2) demo_distinct =
      JObj [("fields", JObj schema); ("sample_document", JObj (hd [] (demo_store 2)));
            ("distinct_values", JObj dv)] /\
    forall f, lookup_key f dv =
      if existsb (String.eqb f) categorical_fields then
        match demo_distinct f with
        | Ok values => if Nat.leb (List.length values) 50 then Some (JArr values) else None
        | Raise _ => None
        end
      else None.
Proof.
  apply (get_schema_info_distinct_values (demo_store 2) demo_distinct
           (hd [] (demo_store 2)) (tl (demo_store 2))); [reflexivity | discriminate].
Defined.

(** ** The tool adapter and the turn, further *)

(** X8: a find payload that parses to anything but a JSON object (a list,
    a string, a number, ...) is answered with
    [{"error": "Error executing query: '<type>' object has no attribute 'get'"}]
    before the store is queried. *)
Theorem find_tool_rejects_non_object : forall coll ec es loads payload v,
  loads payload = Ok v -> (forall kvs, v <> JObj kvs) ->
  execute_mongodb_find coll ec es loads payload =
  Ok (JObj [("error", JStr ("Error executing query: '" ++ py_type_name v ++ "' object has no attribute 'get'"))]).
Proof.
  intros coll ec es loads payload v Hl Hv.
  unfold execute_mongodb_find, execute_mongodb_query, execute_mongodb_query_body.
  rewrite Hl. cbn [bind]. simpl String.eqb. cbv iota.
  unfold run_find, dict_get.
  destruct v as [| | | | |kvs]; try reflexivity.
  exfalso. exact (Hv kvs eq_refl).
Qed.

Lemma find_tool_rejects_non_object_witness :
  execute_mongodb_find (demo_store 3) no_cond no_stage demo_loads "[]" =
  Ok (JObj [("error", JStr "Error executing query: 'list' object has no attribute 'get'")]).
Proof.
  apply (find_tool_rejects_non_object (demo_store 3) no_cond no_stage demo_loads "[]" (JArr [])).
  - reflexivity.
  - intros kvs H. discriminate.
Defined.

(** X9: after a turn whose agent call returns a response, the answer is
    the response's ["output"] (or the fixed apology when it has none), and
    the context the next turn hands to the agent ends with that question
    and that answer. *)
Theorem query_success_next_context : forall invoke h q response,
  invoke q (format_chat_history h) = Ok response ->
  fst (query invoke h q) =
    match lookup_key "output" response with Some a => a | None => default_answer end /\
  exists older,
    format_chat_history (snd (query invoke h q)) =
      (older ++ [HumanMessage q; AIMessage (fst (query invoke h q))])%list.
Proof.
  intros invoke h q response H. unfold query. rewrite H. cbn [fst snd].
  split; [reflexivity|].
  set (answer := match lookup_key "output" response with Some a => a | None => default_answer end).
  exists (map to_message (skipn (List.length h + 2 - 10) h)).
  unfold format_chat_history, py_last, append_turn.
  rewrite <- app_assoc. cbn [app].
  rewrite length_app. cbn [List.length].
  rewrite skipn_app.
  replace (List.length h + 2 - 10 - List.length h) with 0 by lia.
  rewrite map_app. reflexivity.
Qed.

Definition echo_agent (q : string) (h : list message) : outcome (list (string * string)) :=
  Ok [("output", "You asked: " ++ q)].

Lemma query_success_next_context_witness :
  fst (query echo_agent [] "Top 10 departments") = "You asked: Top 10 departments" /\
  exists older,
    format_chat_history (snd (query echo_agent [] "Top 10 departments")) =
      (older ++ [HumanMessage "Top 10 departments";
                 AIMessage (fst (query echo_agent [] "Top 10 departments"))])%list.
Proof.
  apply (query_success_next_context echo_agent [] "Top 10 departments"
           [("output", "You asked: Top 10 departments")]).
  reflexivity.
Defined.



(** ** The batch accounting of the loader, further *)

(** pymongo's [insert_many]: an empty batch is refused, otherwise every
    document gets an id. *)
Definition demo_insert_many (records : list doc) : outcome nat :=
  match records with
  | [] => Raise (PyError "InvalidOperation" "documents must be a non-empty list")
  | _ => Ok (List.length records)
  end.

Definition demo_chunks : list (outcome (list doc)) := [Ok (demo_store 3); Ok (demo_store 4)].

Lemma load_chunks_max_bound : forall clean_data insert_many chunks m t i f t' i' f' e,
  0 < m -> t <= m ->
  load_chunks clean_data insert_many (Some m) chunks t i f = (t', i', f', e) -> t' <= m.
Proof.
  intros clean_data insert_many chunks m.
  induction chunks as [|[c|x] rest IH]; intros t i f t' i' f' e Hm Ht H; simpl in H.
  - injection H as <- <- <- <-. exact Ht.
  - destruct m as [|m']; [lia|]. cbn [max_truthy andb] in H.
    destruct (Nat.leb (S m') t) eqn:Hle.
    + injection H as <- <- <- <-. exact Ht.
    + apply Nat.leb_gt in Hle.
      destruct (insert_many _) as [n|x]; (eapply IH in H; [exact H | exact Hm | ]); [|exact Ht].
      rewrite length_firstn. lia.
  - injection H as <- <- <- <-. exact Ht.
Qed.

Lemma load_chunks_inserted_total : forall clean_data insert_many mx chunks t i f t' i' f' e,
  (forall r n, insert_many r = Ok n -> n = List.length r) -> i = t ->
  load_chunks clean_data insert_many mx chunks t i f = (t', i', f', e) -> i' = t'.
Proof.
  intros clean_data insert_many mx chunks.
  induction chunks as [|[c|x] rest IH]; intros t i f t' i' f' e Hins Hit H; simpl in H.
  - injection H as <- <- <- <-. exact Hit.
  - destruct (max_truthy mx && _).
    + injection H as <- <- <- <-. exact Hit.
    + destruct (insert_many _) as [n|x] eqn:Hn; (eapply IH in H; [exact H | exact Hins | ]); [|exact Hit].
      apply Hins in Hn. lia.
  - injection H as <- <- <- <-. exact Hit.
Qed.

Lemma load_chunks_zero_none : forall clean_data insert_many chunks t i f,
  load_chunks clean_data insert_many (Some 0) chunks t i f =
  load_chunks clean_data insert_many None chunks t i f.
Proof.
  intros clean_data insert_many chunks.
  induction chunks as [|[c|x] rest IH]; intros t i f; simpl; [reflexivity| |reflexivity].
  destruct (insert_many _); apply IH.
Qed.

Lemma load_chunks_unbounded_accounting : forall clean_data insert_many cs t i f,
  exists i',
    load_chunks clean_data insert_many None (map Ok cs) t i f =
      (t + list_sum (map (fun c => match insert_many (clean_data c) with
                                   | Ok _ => List.length (clean_data c) | Raise _ => 0 end) cs),
       i',
       f + list_sum (map (fun c => match insert_many (clean_data c) with
                                   | Ok _ => 0 | Raise _ => List.length (clean_data c) end) cs),
       None).
Proof.
  intros clean_data insert_many cs.
  induction cs as [|c rest IH]; intros t i f; simpl.
  - exists i. rewrite !Nat.add_0_r. reflexivity.
  - destruct (insert_many (clean_data c)) as [n|x].
    + destruct (IH (t + List.length (clean_data c)) (i + n) f) as [i' ->].
      exists i'. simpl.
      apply (f_equal2 pair); [apply (f_equal2 pair); [apply (f_equal2 pair)|]|]; first [reflexivity | lia].
    + destruct (IH t i (f + List.length (clean_data c))) as [i' ->].
      exists i'. simpl.
      apply (f_equal2 pair); [apply (f_equal2 pair); [apply (f_equal2 pair)|]|]; first [reflexivity | lia].
Qed.

Lemma list_sum_split {A} (g h : A -> nat) (xs : list A) :
  list_sum (map g xs) + list_sum (map h xs) = list_sum (map (fun x => g x + h x) xs).
Proof.
  induction xs as [|x xs IH]; simpl; [reflexivity|]. lia.
Qed.

(** X11: with a positive [max_records], the load never counts more than
    [max_records] records as loaded, whatever the chunks and the store do. *)
Theorem load_respects_max_records : forall clean_data insert_many existing chunks m,
  0 < m ->
  total_records (load_csv_to_mongodb clean_data insert_many existing chunks (Some m)) <= m.
Proof.
  intros clean_data insert_many existing chunks m Hm.
  unfold load_csv_to_mongodb. destruct existing as [c|x]; [|simpl; lia].
  destruct (load_chunks clean_data insert_many (Some m) chunks 0 0 0) as [[[t i] f] e] eqn:H.
  apply load_chunks_max_bound in H; [|exact Hm|lia].
  destruct e; exact H.
Qed.

Lemma load_respects_max_records_witness :
  total_records (load_csv_to_mongodb (fun c => c) demo_insert_many (Ok 0) demo_chunks (Some 5)) <= 5.
Proof.
  apply (load_respects_max_records (fun c => c) demo_insert_many (Ok 0) demo_chunks 5). lia.
Defined.

(** X12: when every successful [insert_many] reports one id per document
    (as pymongo does), the load's inserted count equals its total count, for
    any [max_records] and whether or not the load ends in error. *)
Theorem load_inserted_equals_total : forall clean_data insert_many existing chunks mx,
  (forall r n, insert_many r = Ok n -> n = List.length r) ->
  let s := load_csv_to_mongodb clean_data insert_many existing chunks mx in
  inserted_records s = total_records s.
Proof.
  intros clean_data insert_many existing chunks mx Hins s. subst s.
  unfold load_csv_to_mongodb. destruct existing as [c|x]; [|reflexivity].
  destruct (load_chunks clean_data insert_many mx chunks 0 0 0) as [[[t i] f] e] eqn:H.
  apply load_chunks_inserted_total in H; [|exact Hins|reflexivity].
  destruct e; exact H.
Qed.

Lemma load_inserted_equals_total_witness :
  let s := load_csv_to_mongodb (fun c => c) demo_insert_many (Ok 0) demo_chunks (Some 5) in
  inserted_records s = total_records s.
Proof.
  apply (load_inserted_equals_total (fun c => c) demo_insert_many (Ok 0) demo_chunks (Some 5)).
  intros r n H. destruct r as [|d r]; [discriminate|]. injection H as <-. reflexivity.
Defined.

(** X13: [max_records = 0] is falsy in Python, so it loads exactly as if no
    limit were given. *)
Theorem load_max_records_zero_unbounded : forall clean_data insert_many existing chunks,
  load_csv_to_mongodb clean_data insert_many existing chunks (Some 0) =
  load_csv_to_mongodb clean_data insert_many existing chunks None.
Proof.
  intros clean_data insert_many existing chunks.
  unfold load_csv_to_mongodb. rewrite load_chunks_zero_none. reflexivity.
Qed.

(** X14: without a limit and with every chunk read, the load succeeds and
    every cleaned record is counted exactly once: as loaded when its batch is
    inserted, as failed when its batch raises. *)
Theorem load_unbounded_accounting : forall clean_data insert_many c cs,
  let s := load_csv_to_mongodb clean_data insert_many (Ok c) (map Ok cs) None in
  status s = "success" /\
  total_records s = list_sum (map (fun ch => match insert_many (clean_data ch) with
                                             | Ok _ => List.length (clean_data ch)
                                             | Raise _ => 0
                                             end) cs) /\
  failed_records s = list_sum (map (fun ch => match insert_many (clean_data ch) with
                                              | Ok _ => 0
                                              | Raise _ => List.length (clean_data ch)
                                              end) cs) /\
  total_records s + failed_records s = list_sum (map (fun ch => List.length (clean_data ch)) cs).
Proof.
  intros clean_data insert_many c cs s. subst s.
  unfold load_csv_to_mongodb.
  destruct (load_chunks_unbounded_accounting clean_data insert_many cs 0 0 0) as [i' ->].
  simpl. split; [reflexivity|]. split; [reflexivity|]. split; [reflexivity|].
  rewrite list_sum_split. f_equal. apply map_ext. intros ch.
  destruct (insert_many (clean_data ch)); lia.
Qed.
